(** * rotate_image_to_gif.py: eased rotation of an icon into an animated GIF

    A shallow embedding of [src/rotate_image_to_gif.py] and the properties
    its specification states.

    Number model.  The numeric code is read in two ways.  In the main
    embedding Python's [float] is the real numbers [R]: [math.cos] is [cos],
    [math.pi] is [PI], arithmetic is exact, and the only arithmetic error is
    Python's [ZeroDivisionError] on a zero divisor; a statement about this
    embedding is a statement in exact real arithmetic.  The module
    [Binary64] holds the timing function as CPython evaluates it, on binary64
    numbers with the IEEE 754 operations and the [ValueError] of [math.cos];
    it is where the exact reading and the code part.  Python's [int] is [Z].

    Library model.  Pillow ([PIL.Image]) is not code of this repository: it
    appears as the interface [Pillow] below, with the one law the program
    relies on (a rotation with [expand=False] keeps the canvas size).  The
    file system is a finite map from paths to files.  A [save] either cannot
    open its destination, and then writes nothing, or stores the animation
    it is given; what Pillow's GIF writer does to the frames and durations
    it is given (it merges equal consecutive frames and stores hundredths of
    a second), a [save] that fails after it has opened its destination, and
    a [print] that fails on the console's encoding are not modelled. *)

From Stdlib Require Import Reals Lra Lia ZArith List.
From Stdlib Require Import PrimFloat SpecFloat FloatOps.
From stdpp Require Import gmap strings list pretty.

#[local] Open Scope R_scope.

(** ** Exceptions and the two monads of the program *)

(** The exceptions the program can end with. *)
Inductive exn : Set :=
  | FileNotFoundError      (* [Image.open]: no file at the path *)
  | UnidentifiedImageError (* [Image.open]: the file is not an image *)
  | ZeroDivisionError      (* [i / float(0)] *)
  | IndexError             (* [frames[0]] on an empty list *)
  | OSError.               (* [save]: the destination cannot be opened *)

(** The error classes of the specification (its section 7), for the
    exceptions of the program.  A configuration error is what a check of
    [n_frames] or [frame_duration_ms] would report: the program has no such
    check, and none of its exceptions is one.  [ZeroDivisionError] and
    [IndexError] come from the arithmetic and the indexing of the language
    itself and belong to none of the specification's classes. *)
Inductive error_class : Set :=
  | ConfigurationError
  | DecodeError
  | RenderError
  | EncodeWriteError
  | LanguageFault.

Definition error_class_of (e : exn) : error_class :=
  match e with
  | FileNotFoundError | UnidentifiedImageError => DecodeError
  | OSError => EncodeWriteError
  | ZeroDivisionError | IndexError => LanguageFault
  end.

(** Pure code that may raise. *)
Inductive exc (A : Type) : Type :=
  | Ok (a : A)
  | Raise (e : exn).
Arguments Ok {A} a.
Arguments Raise {A} e.

#[global] Instance exc_ret : MRet exc := fun A a => Ok a.

#[global] Instance exc_bind : MBind exc := fun A B k m =>
  match m with
  | Ok a => k a
  | Raise e => Raise e
  end.

(** A [for x in xs: body] loop over a loop-carried state [s]; the first
    exception leaves the loop. *)
Fixpoint for_in {A S : Type} (xs : list A) (body : A -> S -> exc S) (s : S) : exc S :=
  match xs with
  | [] => Ok s
  | x :: xs' => s' ← body x s; for_in xs' body s'
  end.

(** [range(n)] for a Python [int] [n]: empty when [n <= 0]. *)
Definition range (n : Z) : list Z := Z.of_nat <$> seq 0 (Z.to_nat n).

(** [float(n)] for a Python [int] [n]. *)
Definition float (n : Z) : R := IZR n.

(** [x / y] on floats. *)
Definition truediv (x y : R) : exc R :=
  if Req_dec_T y 0 then Raise ZeroDivisionError else Ok (x / y).

(** ** The timing function (source lines 19-27), in exact arithmetic *)

Definition ease_in_out_sine (t : R) : R := 0.5 * (1 - cos (PI * t)).

(** ** The timing function as CPython evaluates it

    In CPython a [float] is a binary64 number and [*], [-] are the IEEE 754
    operations, which are the primitive floats of Rocq.  [math.pi] is the
    binary64 number nearest to pi.  [math.cos x] calls the cosine of the C
    library, which is not code of this repository and is the parameter
    [libm_cos] below; CPython raises [ValueError] (math domain error) when
    the argument is an infinity, and returns the library's value otherwise. *)

Module Binary64.

Inductive result : Set :=
  | Returns (y : PrimFloat.float)
  | RaisesValueError.

(** [math.pi], 3.141592653589793. *)
Definition pi : PrimFloat.float := 0x1.921fb54442d18p+1%float.

Section Libm.
Variable libm_cos : PrimFloat.float -> PrimFloat.float.

Definition math_cos (x : PrimFloat.float) : result :=
  if is_infinity x then RaisesValueError else Returns (libm_cos x).

(** Source lines 19-27. *)
Definition ease_in_out_sine (t : PrimFloat.float) : result :=
  match math_cos (pi * t)%float with
  | Returns c => Returns (0.5 * (1 - c))%float
  | RaisesValueError => RaisesValueError
  end.

End Libm.

(** *** A cosine to run the code with

    The cosine rounded to the nearest binary64 number, computed in fixed
    point: a real [x] is held as the integer [floor (x * 2^P)], and pi is
    held with [Q] fraction bits, enough to reduce every finite binary64
    argument.  It stands for [libm_cos] in concrete runs: at the argument
    evaluated below, [math.pi * 0.5], CPython's [math.cos] returns this
    value, 6.123233995736766e-17. *)








End Binary64.

(** ** The angle list (source lines 48-54) *)

Definition angle_step (n_frames : Z) (i : Z) (angles : list R) : exc (list R) :=
  t ← truediv (float i) (float (n_frames - 1));
  let eased_t := ease_in_out_sine t in
  let theta := 360.0 * eased_t in
  mret (angles ++ [theta]).

Definition build_angles (n_frames : Z) : exc (list R) :=
  for_in (range n_frames) (angle_step n_frames) [].

(** The closed form of the [i]-th angle for [n_frames] frames. *)
Definition angle_at (n_frames i : Z) : R :=
  360.0 * ease_in_out_sine (IZR i / IZR (n_frames - 1)).

(** ** Pillow, the file system and the console *)

Inductive resample : Set := NEAREST | BILINEAR | BICUBIC.

(** A fill colour [(r, g, b, a)]. *)
Definition rgba : Set := (Z * Z * Z * Z)%type.

(** What the program uses of [PIL.Image].  [blob] is the content of a file
    this program did not write; [decode] is what [Image.open] makes of it
    ([None]: not an image Pillow can identify).  [rotate im theta rs expand
    fill] is [im.rotate(theta, resample=rs, expand=expand, fillcolor=fill)];
    Pillow documents that without [expand] the result has the size of the
    input, which is the law [rotate_size]. *)
Class Pillow : Type := {
  image : Type;
  blob : Type;
  im_size : image -> Z * Z;
  decode : blob -> option image;
  convert_rgba : image -> image;
  rotate : image -> R -> resample -> bool -> rgba -> image;
  rotate_size : forall im theta rs fill,
    im_size (rotate im theta rs false fill) = im_size im
}.

Section Program.
Context `{PIL : Pillow}.

(** What [im.save(path, save_all=True, append_images=..., optimize=...,
    format="GIF", duration=..., loop=...)] puts on disk. *)
Record animation : Type := {
  gif_first : image;
  gif_append : list image;
  gif_optimize : bool;
  gif_duration : Z;
  gif_loop : Z
}.

Definition gif_frames (g : animation) : list image := gif_first g :: gif_append g.

Inductive file : Type :=
  | Blob (b : blob)
  | Gif (g : animation).

(** The world the program runs in: the files, the paths that cannot be
    opened for writing (missing directory, no permission), and the console. *)
Record world : Type := {
  files : gmap string file;
  locked : gset string;
  stdout : list string
}.

(** Code that reads and writes the world and may raise: the world comes back
    in both cases. *)
Definition io (A : Type) : Type := world -> exc A * world.

#[global] Instance io_ret : MRet io := fun A a w => (Ok a, w).

#[global] Instance io_bind : MBind io := fun A B k m w =>
  match m w with
  | (Ok a, w') => k a w'
  | (Raise e, w') => (Raise e, w')
  end.

Definition lift {A} (m : exc A) : io A := fun w => (m, w).


(** [Image.open(path)]. *)
Definition image_open (path : string) : io image := fun w =>
  match files w !! path with
  | None => (Raise FileNotFoundError, w)
  | Some (Blob b) =>
      match decode b with
      | Some im => (Ok im, w)
      | None => (Raise UnidentifiedImageError, w)
      end
  | Some (Gif g) => (Ok (gif_first g), w)
  end.

(** [first.save(path, save_all=True, append_images=append, optimize=optimize,
    format="GIF", duration=duration, loop=loop)]: [OSError] and nothing
    written when [path] cannot be opened for writing, and otherwise the
    animation as given. *)
Definition image_save (first : image) (path : string) (append : list image)
    (optimize : bool) (duration loop : Z) : io unit := fun w =>
  if decide (path ∈ locked w) then (Raise OSError, w)
  else
    let g := {| gif_first := first; gif_append := append; gif_optimize := optimize;
                gif_duration := duration; gif_loop := loop |} in
    (Ok tt, {| files := <[path := Gif g]> (files w);
               locked := locked w;
               stdout := stdout w |}).

Definition print (line : string) : io unit := fun w =>
  (Ok tt, {| files := files w; locked := locked w; stdout := stdout w ++ [line] |}).

(** [l[0]] and [l[1:]]. *)
Definition getitem0 {A} (l : list A) : exc A :=
  match l with
  | [] => Raise IndexError
  | x :: _ => Ok x
  end.

Definition slice_from_1 {A} (l : list A) : list A := drop 1 l.

(** ** The frame list (source lines 58-66) *)

Definition frame_step (original : image) (theta : R) (frames : list image)
    : exc (list image) :=
  let frame := rotate original theta BICUBIC false (0, 0, 0, 0)%Z in
  mret (frames ++ [frame]).

Definition build_frames (original : image) (angles : list R) : exc (list image) :=
  for_in angles (frame_step original) [].

(** ** [create_eased_rotating_gif] (source lines 30-84) *)

Definition summary (output_path : string) (w h n_frames frame_duration_ms : Z)
    (loop_forever : bool) : string :=
  ("✅ Saved eased‐in‐out GIF to '" +:+ output_path +:+ "'. "
   +:+ "Size = " +:+ pretty w +:+ "×" +:+ pretty h
   +:+ ", Frames = " +:+ pretty n_frames +:+ ", "
   +:+ "Duration per frame = " +:+ pretty frame_duration_ms +:+ "ms, "
   +:+ (if loop_forever then "∞ loop" else "play twice") +:+ ".")%string.

Definition create_eased_rotating_gif (input_path output_path : string)
    (n_frames frame_duration_ms : Z) (loop_forever : bool) : io unit :=
  opened ← image_open input_path;
  let original := convert_rgba opened in
  let '(w, h) := im_size original in
  angles ← lift (build_angles n_frames);
  frames ← lift (build_frames original angles);
  let loop_param := if loop_forever then 0%Z else 1%Z in
  first ← lift (getitem0 frames);
  image_save first output_path (slice_from_1 frames) true
    frame_duration_ms loop_param;;
  print (summary output_path w h n_frames frame_duration_ms loop_forever).

(** The script's entry point (source lines 87-102). *)
Definition main : io unit :=
  let INPUT_ICON := "C:\Users\kanva\Downloads\k4.png"%string in
  let OUTPUT_GIF := "C:\Users\kanva\Downloads\rotating_icon.gif"%string in
  let N_FRAMES := 24%Z in
  let DURATION_MS := 100%Z in
  let LOOP_FOREVER := true in
  create_eased_rotating_gif INPUT_ICON OUTPUT_GIF N_FRAMES DURATION_MS LOOP_FOREVER.

(** ** Derived forms used in the proofs *)

(** The frame for one angle, as [frame_step] builds it. *)
Definition frame_at (original : image) (theta : R) : image :=
  rotate original theta BICUBIC false (0, 0, 0, 0)%Z.

(** The world after a successful [save] and [print]. *)
Definition written (w : world) (output_path : string) (g : animation)
    (line : string) : world :=
  {| files := <[output_path := Gif g]> (files w);
     locked := locked w;
     stdout := stdout w ++ [line] |}.

(** The run, one case per place where it can end. *)
Definition outcome (input_path output_path : string)
    (n_frames frame_duration_ms : Z) (loop_forever : bool) (w : world)
    : exc unit * world :=
  match (image_open input_path w).1 with
  | Raise e => (Raise e, w)
  | Ok opened =>
      let original := convert_rgba opened in
      match build_angles n_frames with
      | Raise e => (Raise e, w)
      | Ok angles =>
          match frame_at original <$> angles with
          | [] => (Raise IndexError, w)
          | first :: rest =>
              if decide (output_path ∈ locked w) then (Raise OSError, w)
              else
                (Ok tt,
                 written w output_path
                   {| gif_first := first; gif_append := rest; gif_optimize := true;
                      gif_duration := frame_duration_ms;
                      gif_loop := if loop_forever then 0%Z else 1%Z |}
                   (summary output_path (im_size original).1 (im_size original).2
                      n_frames frame_duration_ms loop_forever))
          end
      end
  end.

End Program.

(** ** A small Pillow for concrete runs

    An image is described by its canvas size and by the angle it has been
    turned by; a file on disk either holds such a picture or is not an
    image.  With [expand] the canvas grows to a square that holds every
    rotation of the picture, without it the canvas is kept. *)

Module Sketch.

Record sketch : Type := { sk_size : Z * Z; sk_turn : R }.

Definition sk_decode (b : option (Z * Z)) : option sketch :=
  (fun s => {| sk_size := s; sk_turn := 0 |}) <$> b.

Definition sk_rotate (im : sketch) (theta : R) (rs : resample) (expand : bool)
    (fill : rgba) : sketch :=
  {| sk_size := if expand
                then ((sk_size im).1 + (sk_size im).2, (sk_size im).1 + (sk_size im).2)%Z
                else sk_size im;
     sk_turn := sk_turn im + theta |}.

#[global] Instance sketch_pillow : Pillow := {|
  image := sketch;
  blob := option (Z * Z);
  im_size := sk_size;
  decode := sk_decode;
  convert_rgba := fun im => im;
  rotate := sk_rotate;
  rotate_size := fun im theta rs fill => eq_refl
|}.

(** A 64x64 icon on disk, nothing else, every path writable. *)
Definition icon_world : world :=
  {| files := {[ "icon.png"%string := Blob (Some (64, 64)%Z) ]};
     locked := ∅;
     stdout := [] |}.

(** No file at all. *)
Definition empty_world : world :=
  {| files := ∅; locked := ∅; stdout := [] |}.

(** A file that is not an image. *)
Definition text_world : world :=
  {| files := {[ "icon.png"%string := Blob None ]}; locked := ∅; stdout := [] |}.

Definition run (n_frames : Z) (loop_forever : bool) (w : world) : exc unit * world :=
  create_eased_rotating_gif "icon.png" "rotating_icon.gif" n_frames 100 loop_forever w.

(** The icon on disk and a destination that cannot be opened for writing. *)
Definition locked_world : world :=
  {| files := {[ "icon.png"%string := Blob (Some (64, 64)%Z) ]};
     locked := {[ "rotating_icon.gif"%string ]};
     stdout := [] |}.


End Sketch.

(** * Properties *)

(** ** The timing function *)

Section Timing.

Lemma ease_in_out_sine_0 : ease_in_out_sine 0 = 0.
Proof. unfold ease_in_out_sine. rewrite Rmult_0_r, cos_0. lra. Qed.

Lemma ease_in_out_sine_1 : ease_in_out_sine 1 = 1.
Proof. unfold ease_in_out_sine. rewrite Rmult_1_r, cos_PI. lra. Qed.



Lemma ease_in_out_sine_range (t : R) : 0 <= ease_in_out_sine t <= 1.
Proof.
  unfold ease_in_out_sine.
  pose proof (COS_bound (PI * t)) as [Hlo Hhi]. lra.
Qed.

Lemma ease_in_out_sine_mono (t1 t2 : R) :
  0 <= t1 -> t1 <= t2 -> t2 <= 1 -> ease_in_out_sine t1 <= ease_in_out_sine t2.
Proof.
  intros H0 H12 H1. unfold ease_in_out_sine.
  assert (HPI : 0 < PI) by apply PI_RGT_0.
  assert (Hc : cos (PI * t2) <= cos (PI * t1)).
  { apply cos_decr_1; nra. }
  lra.
Qed.

End Timing.

(** ** Loops and [range] *)

Section Loops.

Lemma range_length (n : Z) : length (range n) = Z.to_nat n.
Proof. unfold range. rewrite length_fmap, length_seq. reflexivity. Qed.

Lemma range_lookup (n : Z) (k : nat) :
  (k < Z.to_nat n)%nat -> range n !! k = Some (Z.of_nat k).
Proof.
  intros Hk. unfold range.
  rewrite list_lookup_fmap, lookup_seq_lt by assumption. reflexivity.
Qed.

Lemma range_bounds (n i : Z) : i ∈ range n -> (0 <= i < n)%Z.
Proof.
  unfold range. intros Hin.
  apply list_elem_of_fmap in Hin as (k & -> & Hk).
  apply elem_of_seq in Hk. lia.
Qed.

(** A loop whose body only appends [f x] builds [f <$> xs]. *)
Lemma for_in_append {A B} (f : A -> B) (body : A -> list B -> exc (list B))
    (xs : list A) (acc : list B) :
  (forall x s, x ∈ xs -> body x s = Ok (s ++ [f x])) ->
  for_in xs body acc = Ok (acc ++ (f <$> xs)).
Proof.
  revert acc. induction xs as [|x xs IH]; intros acc Hbody; simpl.
  - rewrite app_nil_r. reflexivity.
  - rewrite Hbody by apply list_elem_of_here. simpl.
    rewrite IH.
    + rewrite <- app_assoc. reflexivity.
    + intros y s Hy. apply Hbody. apply list_elem_of_further, Hy.
Qed.

(** A loop whose first iteration raises raises. *)
Lemma for_in_raise_first {A S} (body : A -> S -> exc S) (x : A) (xs : list A)
    (s : S) (e : exn) :
  body x s = Raise e -> for_in (x :: xs) body s = Raise e.
Proof. intros Hb. simpl. rewrite Hb. reflexivity. Qed.

End Loops.

(** ** The angle list *)

Section Angles.

Lemma truediv_nonzero (x y : R) : y <> 0 -> truediv x y = Ok (x / y).
Proof. intros Hy. unfold truediv. destruct (Req_dec_T y 0); [contradiction|reflexivity]. Qed.

Lemma truediv_zero (x : R) : truediv x 0 = Raise ZeroDivisionError.
Proof. unfold truediv. destruct (Req_dec_T 0 0); [reflexivity|contradiction]. Qed.

Lemma angle_step_ok (n_frames i : Z) (angles : list R) :
  n_frames <> 1%Z ->
  angle_step n_frames i angles = Ok (angles ++ [angle_at n_frames i]).
Proof.
  intros Hn. unfold angle_step, float.
  rewrite truediv_nonzero; [reflexivity|].
  intros H0. apply eq_IZR_R0 in H0. lia.
Qed.

Lemma build_angles_ok (n_frames : Z) :
  n_frames <> 1%Z ->
  build_angles n_frames = Ok (angle_at n_frames <$> range n_frames).
Proof.
  intros Hn. unfold build_angles.
  rewrite (for_in_append (angle_at n_frames)); [reflexivity|].
  intros i s _. apply angle_step_ok, Hn.
Qed.

Lemma build_angles_1 : build_angles 1 = Raise ZeroDivisionError.
Proof.
  unfold build_angles. change (range 1) with [0%Z].
  apply for_in_raise_first.
  unfold angle_step, float. simpl (1 - 1)%Z. rewrite truediv_zero. reflexivity.
Qed.

Lemma build_angles_nonpos (n_frames : Z) :
  (n_frames < 1)%Z -> build_angles n_frames = Ok [].
Proof.
  intros Hn. unfold build_angles, range.
  replace (Z.to_nat n_frames) with 0%nat by lia. reflexivity.
Qed.

Lemma progress_range (n i : Z) :
  (2 <= n)%Z -> (0 <= i < n)%Z -> 0 <= IZR i / IZR (n - 1) <= 1.
Proof.
  intros Hn Hi.
  assert (Hd : 0 < IZR (n - 1)) by (apply IZR_lt; lia).
  assert (Hi0 : 0 <= IZR i) by (apply IZR_le; lia).
  assert (Hi1 : IZR i <= IZR (n - 1)) by (apply IZR_le; lia).
  split.
  - apply Rmult_le_pos; [assumption|]. left. apply Rinv_0_lt_compat, Hd.
  - apply Rmult_le_reg_r with (IZR (n - 1)); [assumption|].
    unfold Rdiv. rewrite Rmult_assoc, Rinv_l by lra. lra.
Qed.

Lemma progress_mono (n i j : Z) :
  (2 <= n)%Z -> (i <= j)%Z -> IZR i / IZR (n - 1) <= IZR j / IZR (n - 1).
Proof.
  intros Hn Hij.
  assert (Hd : 0 < IZR (n - 1)) by (apply IZR_lt; lia).
  apply Rmult_le_compat_r.
  - left. apply Rinv_0_lt_compat, Hd.
  - apply IZR_le, Hij.
Qed.

Lemma angle_at_range (n i : Z) :
  (2 <= n)%Z -> (0 <= i < n)%Z -> 0 <= angle_at n i <= 360.
Proof.
  intros Hn Hi. unfold angle_at.
  pose proof (ease_in_out_sine_range (IZR i / IZR (n - 1))). lra.
Qed.

Lemma angle_at_mono (n i j : Z) :
  (2 <= n)%Z -> (0 <= i)%Z -> (i <= j)%Z -> (j < n)%Z ->
  angle_at n i <= angle_at n j.
Proof.
  intros Hn Hi Hij Hj. unfold angle_at.
  assert (ease_in_out_sine (IZR i / IZR (n - 1))
          <= ease_in_out_sine (IZR j / IZR (n - 1))).
  { apply ease_in_out_sine_mono.
    - apply progress_range; lia.
    - apply progress_mono; lia.
    - apply progress_range; lia. }
  lra.
Qed.

Lemma angle_at_first (n : Z) : angle_at n 0 = 0.
Proof.
  unfold angle_at. replace (0 / IZR (n - 1)) with 0 by (unfold Rdiv; ring).
  rewrite ease_in_out_sine_0. lra.
Qed.

Lemma angle_at_last (n : Z) : (2 <= n)%Z -> angle_at n (n - 1) = 360.
Proof.
  intros Hn. unfold angle_at.
  assert (Hd : 0 < IZR (n - 1)) by (apply IZR_lt; lia).
  replace (IZR (n - 1) / IZR (n - 1)) with 1 by (field; lra).
  rewrite ease_in_out_sine_1. lra.
Qed.

End Angles.

(** ** The frame list and the run of [create_eased_rotating_gif] *)

Section Run.
Context `{PIL : Pillow}.

Lemma build_frames_ok (original : image) (angles : list R) :
  build_frames original angles = Ok (frame_at original <$> angles).
Proof.
  unfold build_frames.
  rewrite (for_in_append (frame_at original)); [reflexivity|].
  intros theta s _. reflexivity.
Qed.

Lemma frame_at_size (original : image) (theta : R) :
  im_size (frame_at original theta) = im_size original.
Proof. apply rotate_size. Qed.

Lemma image_open_world (path : string) (w : world) :
  (image_open path w).2 = w.
Proof.
  unfold image_open.
  destruct (files w !! path) as [[b|g]|]; [destruct (decode b)| |]; reflexivity.
Qed.

Lemma image_open_raise (path : string) (w : world) (e : exn) :
  (image_open path w).1 = Raise e -> error_class_of e = DecodeError.
Proof.
  unfold image_open.
  destruct (files w !! path) as [[b|g]|]; [destruct (decode b)| |];
    simpl; intros H; inversion H; reflexivity.
Qed.

Lemma create_eased_rotating_gif_outcome (input_path output_path : string)
    (n_frames frame_duration_ms : Z) (loop_forever : bool) (w : world) :
  create_eased_rotating_gif input_path output_path n_frames frame_duration_ms
    loop_forever w
  = outcome input_path output_path n_frames frame_duration_ms loop_forever w.
Proof.
  unfold create_eased_rotating_gif, outcome, mbind, io_bind.
  pose proof (image_open_world input_path w) as Hw.
  destruct (image_open input_path w) as [[opened|e] w0]; simpl in Hw; subst w0;
    simpl; [|reflexivity].
  destruct (im_size (convert_rgba opened)) as [wd ht] eqn:Hsize. simpl.
  destruct (build_angles n_frames) as [angles|e]; [|reflexivity].
  rewrite build_frames_ok.
  destruct (frame_at (convert_rgba opened) <$> angles) as [|first rest];
    simpl; [reflexivity|].
  unfold image_save, slice_from_1. simpl.
  destruct (decide (output_path ∈ locked w)); reflexivity.
Qed.

End Run.


(** ** Concrete runs in the small Pillow *)

Module SketchRuns.
Import Sketch.

Lemma open_icon :
  image_open "icon.png" icon_world
  = (Ok {| sk_size := (64, 64)%Z; sk_turn := 0 |}, icon_world).
Proof. unfold image_open. simpl. rewrite lookup_singleton_eq. reflexivity. Qed.

Lemma open_empty :
  image_open "icon.png" empty_world = (Raise FileNotFoundError, empty_world).
Proof. unfold image_open. simpl. rewrite lookup_empty. reflexivity. Qed.

Lemma open_text :
  image_open "icon.png" text_world = (Raise UnidentifiedImageError, text_world).
Proof. unfold image_open. simpl. rewrite lookup_singleton_eq. reflexivity. Qed.

(** Two frames from the icon: the run succeeds. *)
Lemma run_2_succeeds (loop_forever : bool) :
  (run 2 loop_forever icon_world).1 = Ok tt.
Proof.
  unfold run. rewrite create_eased_rotating_gif_outcome. unfold outcome.
  rewrite open_icon. simpl.
  rewrite build_angles_ok by lia.
  change (range 2) with [0%Z; 1%Z]. simpl.
  destruct (decide _) as [Hin|_]; [|reflexivity].
  exfalso. revert Hin. apply not_elem_of_empty.
Qed.

Lemma run_2_eq (loop_forever : bool) :
  run 2 loop_forever icon_world = (Ok tt, (run 2 loop_forever icon_world).2).
Proof.
  rewrite <- (run_2_succeeds loop_forever).
  destruct (run 2 loop_forever icon_world). reflexivity.
Qed.

(** No frame from the icon: [frames[0]] raises. *)
Lemma run_0_icon : run 0 true icon_world = (Raise IndexError, icon_world).
Proof.
  unfold run. rewrite create_eased_rotating_gif_outcome. unfold outcome.
  rewrite open_icon. simpl. reflexivity.
Qed.

(** No frame and no input file: [Image.open] raises first. *)
Lemma run_0_empty : run 0 true empty_world = (Raise FileNotFoundError, empty_world).
Proof.
  unfold run. rewrite create_eased_rotating_gif_outcome. unfold outcome.
  rewrite open_empty. reflexivity.
Qed.

(** One frame from the icon: the division raises. *)
Lemma run_1_icon : run 1 true icon_world = (Raise ZeroDivisionError, icon_world).
Proof.
  unfold run. rewrite create_eased_rotating_gif_outcome. unfold outcome.
  rewrite open_icon. simpl. rewrite build_angles_1. reflexivity.
Qed.

End SketchRuns.

(** * The claims of the specification *)

(** ** Timing function *)

(** C2: the timing function is [f(t) = (1 - cos(pi t)) / 2], for every [t]
    and so for every [t] of [[0, 1]]; [f(0) = 0] and [f(1) = 1] exactly. *)
Theorem ease_in_out_sine_formula (t : R) :
  ease_in_out_sine t = (1 - cos (PI * t)) / 2
  /\ ease_in_out_sine 0 = 0
  /\ ease_in_out_sine 1 = 1.
Proof.
  split; [unfold ease_in_out_sine; lra|].
  split; [apply ease_in_out_sine_0 | apply ease_in_out_sine_1].
Qed.

(** C7: the timing function is non-decreasing on [[0, 1]]: for
    [0 <= t1 < t2 <= 1], [f(t1) <= f(t2)]. *)
Theorem ease_in_out_sine_monotone (t1 t2 : R) :
  0 <= t1 -> t1 < t2 -> t2 <= 1 ->
  ease_in_out_sine t1 <= ease_in_out_sine t2.
Proof.
  intros H0 H12 H1. apply ease_in_out_sine_mono; lra.
Qed.

Lemma ease_in_out_sine_monotone_witness :
  (0 <= 1 / 4 /\ 1 / 4 < 3 / 4 /\ 3 / 4 <= 1)
  /\ ease_in_out_sine (1 / 4) <= ease_in_out_sine (3 / 4).
Proof.
  split; [lra|].
  apply (ease_in_out_sine_monotone (1 / 4) (3 / 4)); lra.
Defined.






(** ** Angle list *)

(** C1: for [n_frames = N >= 2] the loop of source lines 49-54 ends
    without an exception with a list of exactly [N] angles, the first is [0],
    the last (index [N - 1]) is [360], the list is non-decreasing and every
    angle lies in [[0, 360]]. *)
Theorem build_angles_sequence (n_frames : Z) :
  (2 <= n_frames)%Z ->
  exists angles : list R,
    build_angles n_frames = Ok angles
    /\ Z.of_nat (length angles) = n_frames
    /\ angles !! 0%nat = Some 0
    /\ angles !! Z.to_nat (n_frames - 1) = Some 360
    /\ (forall (i j : nat) (a b : R),
          (i <= j)%nat -> angles !! i = Some a -> angles !! j = Some b -> a <= b)
    /\ Forall (fun a => 0 <= a <= 360) angles.
Proof.
  intros Hn. exists (angle_at n_frames <$> range n_frames).
  split; [apply build_angles_ok; lia|].
  split; [rewrite length_fmap, range_length; lia|].
  split.
  { rewrite list_lookup_fmap, range_lookup by lia. simpl.
    rewrite angle_at_first. reflexivity. }
  split.
  { rewrite list_lookup_fmap, range_lookup by lia. simpl.
    rewrite Z2Nat.id by lia. rewrite angle_at_last by lia. reflexivity. }
  split.
  - intros i j a b Hij Ha Hb.
    assert (Hj : (j < Z.to_nat n_frames)%nat).
    { apply lookup_lt_Some in Hb. rewrite length_fmap, range_length in Hb. exact Hb. }
    rewrite list_lookup_fmap, range_lookup in Ha by lia.
    rewrite list_lookup_fmap, range_lookup in Hb by lia.
    simpl in Ha, Hb. inversion Ha; inversion Hb; subst.
    apply angle_at_mono; lia.
  - apply Forall_fmap, Forall_forall. intros i Hi. simpl.
    apply angle_at_range; [lia|]. apply range_bounds, Hi.
Qed.

Lemma build_angles_sequence_witness :
  (2 <= 4)%Z /\
  exists angles : list R,
    build_angles 4 = Ok angles
    /\ Z.of_nat (length angles) = 4%Z
    /\ angles !! 0%nat = Some 0
    /\ angles !! Z.to_nat (4 - 1) = Some 360
    /\ (forall (i j : nat) (a b : R),
          (i <= j)%nat -> angles !! i = Some a -> angles !! j = Some b -> a <= b)
    /\ Forall (fun a => 0 <= a <= 360) angles.
Proof. split; [lia|]. apply (build_angles_sequence 4). lia. Defined.

(** ** The run of [create_eased_rotating_gif] *)

Section Claims.
Context `{PIL : Pillow}.

(** C3: with [n_frames = 1] the first and only iteration computes
    [0 / float(0)]: the angle loop raises [ZeroDivisionError], and so does
    the whole call whenever the input image opens (otherwise the error of
    [Image.open] comes first).  There is no special case for one frame. *)
Theorem single_frame_zero_division (input_path output_path : string)
    (frame_duration_ms : Z) (loop_forever : bool) (w : world) :
  build_angles 1 = Raise ZeroDivisionError
  /\ create_eased_rotating_gif input_path output_path 1 frame_duration_ms
       loop_forever w
     = (Raise match (image_open input_path w).1 with
              | Ok _ => ZeroDivisionError
              | Raise e => e
              end, w).
Proof.
  split; [apply build_angles_1|].
  rewrite create_eased_rotating_gif_outcome. unfold outcome.
  destruct (image_open input_path w).1; [|reflexivity].
  rewrite build_angles_1. reflexivity.
Qed.

(** C4, as the code has it: with [n_frames < 1] the call raises and leaves
    the world as it was, so nothing is written; the exception is the decode
    error of [Image.open] when the input does not open, and otherwise the
    [IndexError] of [frames[0]] on the empty frame list. *)
Theorem nonpositive_frames_fail (input_path output_path : string)
    (n_frames frame_duration_ms : Z) (loop_forever : bool) (w : world) :
  (n_frames < 1)%Z ->
  create_eased_rotating_gif input_path output_path n_frames frame_duration_ms
    loop_forever w
  = (Raise match (image_open input_path w).1 with
           | Ok _ => IndexError
           | Raise e => e
           end, w).
Proof.
  intros Hn.
  rewrite create_eased_rotating_gif_outcome. unfold outcome.
  destruct (image_open input_path w).1; [|reflexivity].
  rewrite build_angles_nonpos by exact Hn. reflexivity.
Qed.

(** C5: when the call writes its output, the file at [output_path] is an
    animation whose loop directive is [0] if [loop_forever] and [1] if not. *)
Theorem loop_directive (input_path output_path : string)
    (n_frames frame_duration_ms : Z) (loop_forever : bool) (w w' : world) :
  create_eased_rotating_gif input_path output_path n_frames frame_duration_ms
    loop_forever w = (Ok tt, w') ->
  exists g : animation,
    files w' !! output_path = Some (Gif g)
    /\ gif_loop g = (if loop_forever then 0 else 1)%Z.
Proof.
  rewrite create_eased_rotating_gif_outcome. unfold outcome.
  destruct (image_open input_path w).1 as [opened|e]; [|discriminate].
  destruct (build_angles n_frames) as [angles|e]; [|discriminate].
  destruct (frame_at (convert_rgba opened) <$> angles) as [|first rest];
    [discriminate|].
  destruct (decide (output_path ∈ locked w)); [discriminate|].
  intros Hrun. inversion Hrun; subst w'; clear Hrun.
  eexists. split; [apply lookup_insert_eq|reflexivity].
Qed.

(** C6: when there is no file at [input_path], or the file there is not an
    image, the call raises the decode error of [Image.open] and the world is
    unchanged: no angle or frame is computed, no file is created or
    modified, nothing is printed. *)
Theorem undecodable_input_fails (input_path output_path : string)
    (n_frames frame_duration_ms : Z) (loop_forever : bool) (w : world) :
  (files w !! input_path = None
   \/ exists b : blob, files w !! input_path = Some (Blob b) /\ decode b = None) ->
  exists e : exn,
    error_class_of e = DecodeError
    /\ image_open input_path w = (Raise e, w)
    /\ create_eased_rotating_gif input_path output_path n_frames
         frame_duration_ms loop_forever w = (Raise e, w).
Proof.
  intros Hbad.
  assert (Hopen : exists e, error_class_of e = DecodeError
                            /\ image_open input_path w = (Raise e, w)).
  { unfold image_open. destruct Hbad as [Hnone | (b & Hsome & Hdec)].
    - exists FileNotFoundError. rewrite Hnone. split; reflexivity.
    - exists UnidentifiedImageError. rewrite Hsome, Hdec. split; reflexivity. }
  destruct Hopen as (e & He & Hopen). exists e.
  split; [exact He|]. split; [exact Hopen|].
  rewrite create_eased_rotating_gif_outcome. unfold outcome.
  rewrite Hopen. reflexivity.
Qed.

(** C9: in a call that writes its output, the angle list and the frame list
    have [n_frames] elements each, the frames written are the frames built,
    and every frame, built with [expand=False], has the width and height of
    the source raster, whatever its angle. *)
Theorem frames_keep_size (input_path output_path : string)
    (n_frames frame_duration_ms : Z) (loop_forever : bool) (w w' : world) :
  create_eased_rotating_gif input_path output_path n_frames frame_duration_ms
    loop_forever w = (Ok tt, w') ->
  exists (opened : image) (angles : list R) (frames : list image) (g : animation),
    image_open input_path w = (Ok opened, w)
    /\ build_angles n_frames = Ok angles
    /\ build_frames (convert_rgba opened) angles = Ok frames
    /\ files w' !! output_path = Some (Gif g)
    /\ gif_frames g = frames
    /\ Z.of_nat (length angles) = n_frames
    /\ Z.of_nat (length frames) = n_frames
    /\ Forall (fun frame => im_size frame = im_size (convert_rgba opened)) frames.
Proof.
  rewrite create_eased_rotating_gif_outcome. unfold outcome.
  pose proof (image_open_world input_path w) as Hw.
  destruct (image_open input_path w) as [[opened|e] w0]; simpl in *;
    [subst w0|discriminate].
  destruct (build_angles n_frames) as [angles|e] eqn:Hangles; [|discriminate].
  destruct (frame_at (convert_rgba opened) <$> angles) as [|first rest] eqn:Hframes;
    [discriminate|].
  destruct (decide (output_path ∈ locked w)); [discriminate|].
  intros Hrun. inversion Hrun; subst w'; clear Hrun.
  assert (Hn : n_frames <> 1%Z).
  { intros ->. rewrite build_angles_1 in Hangles. discriminate. }
  rewrite build_angles_ok in Hangles by exact Hn.
  inversion Hangles; subst angles; clear Hangles.
  assert (Hlen : Z.of_nat (length (range n_frames)) = n_frames).
  { destruct (range n_frames) eqn:Hr; [discriminate|]. rewrite <- Hr.
    rewrite range_length. apply Z2Nat.id.
    destruct (Z_lt_le_dec n_frames 0) as [Hneg|Hpos]; [|exact Hpos].
    unfold range in Hr. replace (Z.to_nat n_frames) with 0%nat in Hr by lia.
    discriminate. }
  eexists opened, _, (first :: rest), _.
  split; [reflexivity|]. split; [reflexivity|].
  split; [rewrite build_frames_ok, Hframes; reflexivity|].
  split; [apply lookup_insert_eq|].
  split; [reflexivity|].
  split; [rewrite length_fmap; exact Hlen|].
  split; [rewrite <- Hframes, !length_fmap; exact Hlen|].
  rewrite <- Hframes. apply Forall_fmap, Forall_forall.
  intros theta _. apply frame_at_size.
Qed.

End Claims.

(** ** The claims on concrete runs *)

(** C4, as the specification states it, fails on the code: with
    [n_frames = 0] and no input file the call ends with the decode error
    [FileNotFoundError], and with a good input file it ends with the
    [IndexError] of [frames[0]], raised after the image was opened and both
    loops ran.  Neither is a configuration error, and the frame count is
    never what is looked at first. *)
Lemma nonpositive_frames_counterexample :
  (Sketch.run 0 true Sketch.empty_world
     = (Raise FileNotFoundError, Sketch.empty_world)
   /\ error_class_of FileNotFoundError = DecodeError)
  /\ (Sketch.run 0 true Sketch.icon_world
        = (Raise IndexError, Sketch.icon_world)
      /\ error_class_of IndexError = LanguageFault)
  /\ DecodeError <> ConfigurationError
  /\ LanguageFault <> ConfigurationError.
Proof.
  split; [split; [apply SketchRuns.run_0_empty|reflexivity]|].
  split; [split; [apply SketchRuns.run_0_icon|reflexivity]|].
  split; discriminate.
Qed.

Lemma nonpositive_frames_fail_witness :
  (0 < 1)%Z
  /\ Sketch.run 0 true Sketch.icon_world
     = (Raise match (image_open "icon.png" Sketch.icon_world).1 with
              | Ok _ => IndexError
              | Raise e => e
              end, Sketch.icon_world).
Proof.
  split; [lia|].
  apply (nonpositive_frames_fail "icon.png" "rotating_icon.gif" 0 100 true
           Sketch.icon_world).
  lia.
Defined.

Lemma loop_directive_witness :
  Sketch.run 2 false Sketch.icon_world
    = (Ok tt, (Sketch.run 2 false Sketch.icon_world).2)
  /\ exists g : animation,
       files (Sketch.run 2 false Sketch.icon_world).2 !! "rotating_icon.gif"
         = Some (Gif g)
       /\ gif_loop g = 1%Z.
Proof.
  split; [apply SketchRuns.run_2_eq|].
  apply (loop_directive "icon.png" "rotating_icon.gif" 2 100 false
           Sketch.icon_world _ (SketchRuns.run_2_eq false)).
Defined.

Lemma undecodable_input_fails_witness :
  files Sketch.empty_world !! "icon.png" = None
  /\ exists e : exn,
       error_class_of e = DecodeError
       /\ image_open "icon.png" Sketch.empty_world = (Raise e, Sketch.empty_world)
       /\ Sketch.run 4 true Sketch.empty_world = (Raise e, Sketch.empty_world).
Proof.
  split; [reflexivity|].
  apply (undecodable_input_fails "icon.png" "rotating_icon.gif" 4 100 true
           Sketch.empty_world).
  left. reflexivity.
Defined.

Lemma frames_keep_size_witness :
  Sketch.run 2 true Sketch.icon_world
    = (Ok tt, (Sketch.run 2 true Sketch.icon_world).2)
  /\ exists (opened : image) (angles : list R) (frames : list image)
            (g : animation),
       image_open "icon.png" Sketch.icon_world = (Ok opened, Sketch.icon_world)
       /\ build_angles 2 = Ok angles
       /\ build_frames (convert_rgba opened) angles = Ok frames
       /\ files (Sketch.run 2 true Sketch.icon_world).2 !! "rotating_icon.gif"
          = Some (Gif g)
       /\ gif_frames g = frames
       /\ Z.of_nat (length angles) = 2%Z
       /\ Z.of_nat (length frames) = 2%Z
       /\ Forall (fun frame => im_size frame = im_size (convert_rgba opened)) frames.
Proof.
  split; [apply SketchRuns.run_2_eq|].
  apply (frames_keep_size "icon.png" "rotating_icon.gif" 2 100 true
           Sketch.icon_world _ (SketchRuns.run_2_eq true)).
Defined.

(** * Further properties of the code *)

(** ** The timing function off the claims *)

Lemma ease_in_out_sine_derivative (t : R) :
  derivable_pt_lim ease_in_out_sine t (PI / 2 * sin (PI * t)).
Proof.
  assert (Hin : derivable_pt_lim (fun x => PI * x) t PI).
  { pose proof (derivable_pt_lim_scal id PI t 1 (derivable_pt_lim_id t)) as H.
    rewrite Rmult_1_r in H. exact H. }
  pose proof (derivable_pt_lim_comp _ cos t _ _ Hin
                (derivable_pt_lim_cos (PI * t))) as Hc.
  pose proof (derivable_pt_lim_minus _ _ t _ _
                (derivable_pt_lim_const 1 t) Hc) as Hm.
  pose proof (derivable_pt_lim_scal _ 0.5 t _ Hm) as Hs.
  replace (PI / 2 * sin (PI * t)) with (0.5 * (0 - - sin (PI * t) * PI)) by lra.
  exact Hs.
Qed.

(** ** The angle list off the claims *)

Lemma range_nonempty (n : Z) : (1 <= n)%Z -> exists rest, range n = 0%Z :: rest.
Proof.
  intros Hn. unfold range.
  destruct (Z.to_nat n) as [|k] eqn:Hk; [lia|].
  simpl. eexists. reflexivity.
Qed.

(** X1: the docstring's [f'(0) = 0] and [f'(1) = 0]: the timing function
    has derivative [(pi / 2) sin(pi t)] at every [t], which is [0] at both
    ends, so the motion starts and ends at rest. *)
Theorem ease_in_out_sine_rest (t : R) :
  derivable_pt_lim ease_in_out_sine t (PI / 2 * sin (PI * t))
  /\ derivable_pt_lim ease_in_out_sine 0 0
  /\ derivable_pt_lim ease_in_out_sine 1 0.
Proof.
  split; [apply ease_in_out_sine_derivative|]. split.
  - pose proof (ease_in_out_sine_derivative 0) as H.
    rewrite Rmult_0_r, sin_0, Rmult_0_r in H. exact H.
  - pose proof (ease_in_out_sine_derivative 1) as H.
    rewrite Rmult_1_r, sin_PI, Rmult_0_r in H. exact H.
Qed.

(** ** The run off the claims *)

Section RunMore.
Context `{PIL : Pillow}.


(** With two frames or more the frame list starts with the turn by [0]. *)
Lemma frames_nonempty (original : image) (n_frames : Z) :
  (2 <= n_frames)%Z ->
  exists rest : list image,
    frame_at original <$> (angle_at n_frames <$> range n_frames)
    = frame_at original (angle_at n_frames 0) :: rest.
Proof.
  intros Hn. destruct (range_nonempty n_frames) as [rest Hr]; [lia|].
  rewrite Hr. simpl. eexists. reflexivity.
Qed.

(** The run that reaches [save]. *)
Lemma outcome_save (input_path output_path : string)
    (n_frames frame_duration_ms : Z) (loop_forever : bool) (w : world)
    (opened : image) :
  (image_open input_path w).1 = Ok opened ->
  (2 <= n_frames)%Z ->
  exists rest : list image,
    frame_at (convert_rgba opened) <$> (angle_at n_frames <$> range n_frames)
      = frame_at (convert_rgba opened) (angle_at n_frames 0) :: rest
    /\ create_eased_rotating_gif input_path output_path n_frames
         frame_duration_ms loop_forever w
       = if decide (output_path ∈ locked w) then (Raise OSError, w)
         else
           (Ok tt,
            written w output_path
              {| gif_first := frame_at (convert_rgba opened) (angle_at n_frames 0);
                 gif_append := rest; gif_optimize := true;
                 gif_duration := frame_duration_ms;
                 gif_loop := if loop_forever then 0%Z else 1%Z |}
              (summary output_path (im_size (convert_rgba opened)).1
                 (im_size (convert_rgba opened)).2
                 n_frames frame_duration_ms loop_forever)).
Proof.
  intros Hopen Hn.
  destruct (frames_nonempty (convert_rgba opened) n_frames Hn) as [rest Hrest].
  exists rest. split; [exact Hrest|].
  rewrite create_eased_rotating_gif_outcome. unfold outcome.
  rewrite Hopen, build_angles_ok by lia. simpl. rewrite Hrest. reflexivity.
Qed.

(** A run that ends well went through [save]. *)
Lemma outcome_ok_inv (input_path output_path : string)
    (n_frames frame_duration_ms : Z) (loop_forever : bool) (w : world) :
  (create_eased_rotating_gif input_path output_path n_frames frame_duration_ms
     loop_forever w).1 = Ok tt ->
  (exists opened : image, (image_open input_path w).1 = Ok opened)
  /\ (2 <= n_frames)%Z
  /\ output_path ∉ locked w.
Proof.
  rewrite create_eased_rotating_gif_outcome. unfold outcome.
  destruct (image_open input_path w).1 as [opened|e]; [|discriminate].
  destruct (Z_lt_le_dec n_frames 1%Z) as [Hlt|Hge].
  { rewrite build_angles_nonpos by exact Hlt. discriminate. }
  destruct (Z.eq_dec n_frames 1%Z) as [->|Hne].
  { rewrite build_angles_1. discriminate. }
  rewrite build_angles_ok by exact Hne.
  destruct (frame_at (convert_rgba opened) <$> _) as [|first rest]; [discriminate|].
  destruct (decide (output_path ∈ locked w)) as [Hin|Hnin]; [discriminate|].
  intros _. split; [eexists; reflexivity|]. split; [lia|exact Hnin].
Qed.


(** X7: a call that ends well had an input that opens as an image, two
    frames or more, and a destination that can be opened for writing: with
    [n_frames <= 1] no call ends well. *)
Theorem success_requires (input_path output_path : string)
    (n_frames frame_duration_ms : Z) (loop_forever : bool) (w w' : world) :
  create_eased_rotating_gif input_path output_path n_frames frame_duration_ms
    loop_forever w = (Ok tt, w') ->
  (exists opened : image, (image_open input_path w).1 = Ok opened)
  /\ (2 <= n_frames)%Z
  /\ output_path ∉ locked w.
Proof.
  intros Hrun.
  apply (outcome_ok_inv input_path output_path n_frames frame_duration_ms
           loop_forever w).
  rewrite Hrun. reflexivity.
Qed.

(** X9: when the input opens and there are two frames or more but the
    destination cannot be opened for writing, the call raises the [OSError]
    of [save] after the rendering and leaves the world unchanged. *)
Theorem unwritable_output_fails (input_path output_path : string)
    (n_frames frame_duration_ms : Z) (loop_forever : bool) (w : world)
    (opened : image) :
  (image_open input_path w).1 = Ok opened ->
  (2 <= n_frames)%Z ->
  output_path ∈ locked w ->
  create_eased_rotating_gif input_path output_path n_frames frame_duration_ms
    loop_forever w = (Raise OSError, w).
Proof.
  intros Hopen Hn Hlocked.
  destruct (outcome_save input_path output_path n_frames frame_duration_ms
              loop_forever w opened Hopen Hn) as (rest & _ & ->).
  destruct (decide (output_path ∈ locked w)); [reflexivity|contradiction].
Qed.




End RunMore.

(** ** More concrete runs in the small Pillow *)

Module SketchMore.
Import Sketch.

Lemma open_locked :
  (image_open "icon.png" locked_world).1
  = Ok {| sk_size := (64, 64)%Z; sk_turn := 0 |}.
Proof. unfold image_open. simpl. rewrite lookup_singleton_eq. reflexivity. Qed.

Lemma output_locked : "rotating_icon.gif"%string ∈ locked locked_world.
Proof. simpl. apply elem_of_singleton. reflexivity. Qed.



End SketchMore.

Lemma success_requires_witness :
  Sketch.run 2 true Sketch.icon_world
    = (Ok tt, (Sketch.run 2 true Sketch.icon_world).2)
  /\ (exists opened : image,
        (image_open "icon.png" Sketch.icon_world).1 = Ok opened)
  /\ (2 <= 2)%Z
  /\ "rotating_icon.gif"%string ∉ locked Sketch.icon_world.
Proof.
  split; [apply SketchRuns.run_2_eq|].
  apply (success_requires "icon.png" "rotating_icon.gif" 2 100 true
           Sketch.icon_world _ (SketchRuns.run_2_eq true)).
Defined.

Lemma unwritable_output_fails_witness :
  ((image_open "icon.png" Sketch.locked_world).1
     = Ok {| Sketch.sk_size := (64, 64)%Z; Sketch.sk_turn := 0 |}
   /\ (2 <= 3)%Z
   /\ "rotating_icon.gif"%string ∈ locked Sketch.locked_world)
  /\ Sketch.run 3 true Sketch.locked_world = (Raise OSError, Sketch.locked_world).
Proof.
  split.
  { split; [apply SketchMore.open_locked|].
    split; [lia|apply SketchMore.output_locked]. }
  apply (unwritable_output_fails "icon.png" "rotating_icon.gif" 3 100 true
           Sketch.locked_world _ SketchMore.open_locked).
  - lia.
  - apply SketchMore.output_locked.
Defined.



